(** * Wagtail API v2 router: a shallow embedding of
      [wagtail/api/v2/router.py] and the properties of its registry,
      reverse lookup and URL assembly. *)

From stdpp Require Import gmap strings list.

Local Open Scope string_scope.

(** ** Python values the router handles *)

(** Exceptions the modelled code can raise. *)
Inductive PyExn :=
| KeyError
| Exception (msg : string).

(** Outcome of a call: a returned value or a raised exception. *)
Inductive PyResult (A : Type) :=
| Returned (a : A)
| Raised (e : PyExn).
Arguments Returned {A} a.
Arguments Raised {A} e.

(** A class object used as a model.  Classes hash and compare by identity,
    so [cls_id] stands for the object; [cls_ancestors] is the rest of the
    linearised ancestry.  Python puts the class itself first in its
    [__mro__]. *)
Record PyClass := {
  cls_id : positive;
  cls_ancestors : list positive
}.

Definition __mro__ (c : PyClass) : list positive :=
  cls_id c :: cls_ancestors c.

(** A request object: its path and its instance attributes, which hold
    references to other objects. *)
Record HttpRequest := {
  request_path : string;
  request_attrs : gmap string positive
}.

Definition setattr (request : HttpRequest) (attr : string) (obj : positive)
  : HttpRequest :=
  {| request_path := request_path request;
     request_attrs := <[attr := obj]> (request_attrs request) |}.

Definition getattr (request : HttpRequest) (attr : string) : option positive :=
  request_attrs request !! attr.

Record HttpResponse := {
  status_code : Z;
  content : string
}.

(** Positional and keyword arguments forwarded to a view. *)
Record CallArgs := {
  args : list string;
  kwargs : list (string * string)
}.

(** A view callable.  It receives the (mutable) request, so the request is
    threaded through; [view_name] and [view_doc] are the metadata that
    [functools.wraps] copies. *)
Record View := {
  view_name : string;
  view_doc : string;
  view_call : HttpRequest → CallArgs → PyResult HttpResponse * HttpRequest
}.

(** Django's URL configuration entries: a pattern bound to a view, or a
    resolver that includes a nested list under a namespace. *)
#[local] Set Warnings "-register-all".
Inductive Route :=
| URLPattern (regex : string) (callback : View) (name : string)
| URLResolver (regex : string) (url_patterns : list Route)
              (app_name : string) (namespace : string).

(** [django.urls.include((patterns, app_name), namespace=...)]. *)
Definition include (arg : list Route * string) (namespace : string)
  : list Route * string * string :=
  (arg.1, arg.2, namespace).

(** [django.urls.re_path(regex, include(...))]. *)
Definition re_path (regex : string) (included : list Route * string * string)
  : Route :=
  URLResolver regex included.1.1 included.1.2 included.2.

(** ** Endpoint classes (external collaborators) *)

Module Endpoint.
(** What the router uses of an endpoint class: its [model] attribute and
    three class methods.  The class methods are taken as given: each call
    returns a value, [get_urlpatterns] a freshly built list. *)
Record t := {
  model : option PyClass;
  get_urlpatterns : list Route;
  get_model_listing_urlpath : PyClass → string → option string;
  get_object_detail_urlpath : PyClass → Z → string → option string
}.
End Endpoint.

(** ** Insertion-ordered dictionaries

    [dict] keeps its keys in insertion order and [items()] iterates in that
    order; assigning to an existing key keeps its position. *)

Section ordered_dict.
Context {K V : Type} `{EqDecision K}.

Fixpoint dict_setitem (d : list (K * V)) (k : K) (v : V) : list (K * V) :=
  match d with
  | [] => [(k, v)]
  | (k', v') :: rest =>
      if decide (k' = k) then (k', v) :: rest
      else (k', v') :: dict_setitem rest k v
  end.

Fixpoint dict_get (d : list (K * V)) (k : K) : option V :=
  match d with
  | [] => None
  | (k', v') :: rest => if decide (k' = k) then Some v' else dict_get rest k
  end.

Definition dict_keys (d : list (K * V)) : list K := d.*1.

Definition dict_items (d : list (K * V)) : list (K * V) := d.
End ordered_dict.

(** [d.setdefault(k, v)] on a dictionary used only as a map. *)
Definition dict_setdefault {V : Type} (d : gmap positive V) (k : positive) (v : V)
  : gmap positive V :=
  match d !! k with
  | Some _ => d
  | None => <[k := v]> d
  end.

(** ** The router *)

Module WagtailAPIRouter.

(** Instance state.  [self_id] is the identity of the router object, the
    reference that other objects store. *)
Record t := {
  self_id : positive;
  url_namespace : string;
  _endpoints : list (string * Endpoint.t);
  _model2endpoint : gmap positive (string * Endpoint.t)
}.

Definition set_endpoints (f : list (string * Endpoint.t) → list (string * Endpoint.t))
    (self : t) : t :=
  {| self_id := self_id self;
     url_namespace := url_namespace self;
     _endpoints := f (_endpoints self);
     _model2endpoint := _model2endpoint self |}.

Definition set_model2endpoint
    (f : gmap positive (string * Endpoint.t) → gmap positive (string * Endpoint.t))
    (self : t) : t :=
  {| self_id := self_id self;
     url_namespace := url_namespace self;
     _endpoints := _endpoints self;
     _model2endpoint := f (_model2endpoint self) |}.

(** Methods run against the instance: they may read it, update it, and
    return or raise. *)
Definition Method (A : Type) : Type := t → PyResult A * t.

Definition ret {A} (a : A) : Method A := λ self, (Returned a, self).

Definition raise {A} (e : PyExn) : Method A := λ self, (Raised e, self).

Definition bind {A B} (m : Method A) (k : A → Method B) : Method B :=
  λ self,
    match m self with
    | (Returned a, self') => k a self'
    | (Raised e, self') => (Raised e, self')
    end.

Definition get_self : Method t := λ self, (Returned self, self).

Definition modify (f : t → t) : Method unit := λ self, (Returned tt, f self).

Definition result {A} (m : Method A) (self : t) : PyResult A := (m self).1.

Definition state_after {A} (m : Method A) (self : t) : t := (m self).2.

#[export] Instance method_ret : MRet Method := @ret.
#[export] Instance method_bind : MBind Method := λ A B k m, bind m k.

(** [d[k]] on the model index. *)
Definition getitem {V} (d : gmap positive V) (k : positive) : Method V :=
  match d !! k with
  | Some v => ret v
  | None => raise KeyError
  end.

Definition __init__ (self : positive) (url_namespace : string) : t :=
  {| self_id := self;
     url_namespace := url_namespace;
     _endpoints := [];
     _model2endpoint := ∅ |}.

Definition register_endpoint (name : string) (class_ : Endpoint.t)
    (as_default_view : bool) : Method unit :=
  modify (set_endpoints (λ d, dict_setitem d name class_));;
  match as_default_view, Endpoint.model class_ with
  | true, Some model =>
      modify (set_model2endpoint
                (λ d, dict_setdefault d (cls_id model) (name, class_)))
  | _, _ => mret tt
  end.

Fixpoint get_model_endpoint_loop (classes : list positive)
  : Method (option (string * Endpoint.t)) :=
  match classes with
  | [] => mret None
  | class_ :: rest =>
      self ← get_self;
      if decide (is_Some (_model2endpoint self !! class_)) then
        entry ← getitem (_model2endpoint self) class_;
        mret (Some entry)
      else get_model_endpoint_loop rest
  end.

Definition get_model_endpoint (model : PyClass) (specific : bool)
  : Method (option (string * Endpoint.t)) :=
  get_model_endpoint_loop (__mro__ model).

Definition get_model_listing_urlpath (model : PyClass) : Method (option string) :=
  endpoint ← get_model_endpoint model false;
  match endpoint with
  | Some endpoint =>
      let endpoint_name := endpoint.1 in
      let endpoint_class := endpoint.2 in
      self ← get_self;
      let url_namespace := url_namespace self ++ ":" ++ endpoint_name in
      mret (Endpoint.get_model_listing_urlpath endpoint_class model url_namespace)
  | None => mret None
  end.

Definition get_object_detail_urlpath (model : PyClass) (pk : Z)
  : Method (option string) :=
  endpoint ← get_model_endpoint model false;
  match endpoint with
  | Some endpoint =>
      let endpoint_name := endpoint.1 in
      let endpoint_class := endpoint.2 in
      self ← get_self;
      let url_namespace := url_namespace self ++ ":" ++ endpoint_name in
      mret (Endpoint.get_object_detail_urlpath endpoint_class model pk url_namespace)
  | None => mret None
  end.

(** The closure keeps a reference to [self]; [functools.wraps] copies the
    metadata of [func] onto it. *)
Definition wrap_view (self : t) (func : View) : View :=
  {| view_name := view_name func;
     view_doc := view_doc func;
     view_call := λ request a,
       let request := setattr request "wagtailapi_router" (self_id self) in
       view_call func request a |}.

(** Modelled from the spec: [decorate_urlpatterns], imported from
    [wagtail.utils.urlpatterns], whose definition is not available.  The
    specification requires every route fragment, nested ones included, to
    be wrapped with the decorator; a fragment that maps a pattern to a
    handler has its handler replaced by the decorated one, a fragment that
    nests others has each nested fragment decorated. *)
Fixpoint decorate_route (decorator : View → View) (pattern : Route) : Route :=
  match pattern with
  | URLPattern regex callback name =>
      URLPattern regex (decorator callback) name
  | URLResolver regex url_patterns app_name namespace =>
      URLResolver regex (map (decorate_route decorator) url_patterns)
                  app_name namespace
  end.

Definition decorate_urlpatterns (urlpatterns : list Route)
    (decorator : View → View) : list Route :=
  map (decorate_route decorator) urlpatterns.

(** The body of the [for name, class_ in self._endpoints.items()] loop,
    with the list it appends to. *)
Fixpoint get_urlpatterns_loop (items : list (string * Endpoint.t))
    (urlpatterns : list Route) : list Route :=
  match items with
  | [] => urlpatterns
  | (name, class_) :: rest =>
      let pattern :=
        re_path ("^" ++ name ++ "/")
                (include (Endpoint.get_urlpatterns class_, name) name) in
      get_urlpatterns_loop rest (urlpatterns ++ [pattern])%list
  end.

(** [decorate_urlpatterns] works on the list it is given, which is the list
    that is returned. *)
Definition get_urlpatterns : Method (list Route) :=
  self ← get_self;
  let urlpatterns := get_urlpatterns_loop (dict_items (_endpoints self)) [] in
  let urlpatterns := decorate_urlpatterns urlpatterns (wrap_view self) in
  mret urlpatterns.

Definition urls : Method (list Route * string * string) :=
  urlpatterns ← get_urlpatterns;
  self ← get_self;
  mret (urlpatterns, url_namespace self, url_namespace self).

End WagtailAPIRouter.

Import WagtailAPIRouter.

(** ** Observations on route fragments *)

Definition route_regex (p : Route) : string :=
  match p with
  | URLPattern regex _ _ => regex
  | URLResolver regex _ _ _ => regex
  end.

Definition route_url_patterns (p : Route) : list Route :=
  match p with
  | URLPattern _ _ _ => []
  | URLResolver _ url_patterns _ _ => url_patterns
  end.

Definition route_namespace (p : Route) : option string :=
  match p with
  | URLPattern _ _ _ => None
  | URLResolver _ _ _ namespace => Some namespace
  end.

Definition route_app_name (p : Route) : option string :=
  match p with
  | URLPattern _ _ _ => None
  | URLResolver _ _ app_name _ => Some app_name
  end.

(** Every view reachable from a fragment, nested fragments included. *)
Fixpoint route_views (p : Route) : list View :=
  match p with
  | URLPattern _ callback _ => [callback]
  | URLResolver _ url_patterns _ _ => concat (map route_views url_patterns)
  end.

(** The fragment that [get_urlpatterns] returns for one registry item. *)
Definition endpoint_fragment (self : t) (item : string * Endpoint.t) : Route :=
  URLResolver ("^" ++ item.1 ++ "/")
              (decorate_urlpatterns (Endpoint.get_urlpatterns item.2) (wrap_view self))
              item.1 item.1.

(** A fragment all of whose handlers were produced by [wrap_view self]. *)
Inductive wrapped_by (self : t) : Route → Prop :=
| wrapped_pattern regex func name :
    wrapped_by self (URLPattern regex (wrap_view self func) name)
| wrapped_resolver regex url_patterns app_name namespace :
    Forall (wrapped_by self) url_patterns →
    wrapped_by self (URLResolver regex url_patterns app_name namespace).

(** Induction over fragments that reaches the nested lists. *)
Section Route_nested_ind.
Variable P : Route → Prop.
Hypothesis Hpattern : ∀ regex callback name, P (URLPattern regex callback name).
Hypothesis Hresolver : ∀ regex url_patterns app_name namespace,
  Forall P url_patterns → P (URLResolver regex url_patterns app_name namespace).

Fixpoint Route_nested_ind (p : Route) : P p :=
  match p with
  | URLPattern regex callback name => Hpattern regex callback name
  | URLResolver regex url_patterns app_name namespace =>
      Hresolver regex url_patterns app_name namespace
        ((fix nested (l : list Route) : Forall P l :=
            match l with
            | [] => Forall_nil_2 P
            | p' :: l' => Forall_cons_2 P p' l' (Route_nested_ind p') (nested l')
            end) url_patterns)
  end.
End Route_nested_ind.

(** The representation invariant of a Python [dict]: keys are unique. *)
Definition dict_wf {V : Type} (d : list (string * V)) : Prop :=
  NoDup (dict_keys d).

(** States reached from a fresh router by registration calls. *)
Inductive reachable : t → Prop :=
| reachable_init self url_namespace :
    reachable (__init__ self url_namespace)
| reachable_register self name class_ as_default_view :
    reachable self →
    reachable (state_after (register_endpoint name class_ as_default_view) self).

(** [self'] is [self] after any number of further registration calls. *)
Inductive registered_from (self : t) : t → Prop :=
| registered_from_refl : registered_from self self
| registered_from_step self' name class_ as_default_view :
    registered_from self self' →
    registered_from self
      (state_after (register_endpoint name class_ as_default_view) self').

(** ** A small site used in the examples *)

Module Site.
(** Model classes: [Page] and [Image] derive from [Model]; [BlogPage]
    derives from [Page]. *)
Definition object_ : positive := 1%positive.
Definition Model_ : positive := 2%positive.
Definition Page : PyClass :=
  {| cls_id := 10; cls_ancestors := [Model_; object_] |}.
Definition BlogPage : PyClass :=
  {| cls_id := 11; cls_ancestors := [cls_id Page; Model_; object_] |}.
Definition Image : PyClass :=
  {| cls_id := 20; cls_ancestors := [Model_; object_] |}.
Definition Document : PyClass :=
  {| cls_id := 30; cls_ancestors := [Model_; object_] |}.

(** A view that answers 200 when the request carries a router reference
    and 500 otherwise. *)
Definition router_aware_view (name : string) : View :=
  {| view_name := name;
     view_doc := "";
     view_call := λ request _,
       match getattr request "wagtailapi_router" with
       | Some _ => (Returned {| status_code := 200; content := name |}, request)
       | None => (Returned {| status_code := 500; content := "no router" |}, request)
       end |}.

(** An endpoint class in the style of [BaseAPIViewSet]: listing and detail
    routes, and path builders that qualify the URL name with the
    namespace they are given. *)
Definition viewset (model : option PyClass) (detail : bool) : Endpoint.t :=
  {| Endpoint.model := model;
     Endpoint.get_urlpatterns :=
       [ URLPattern "^$" (router_aware_view "listing_view") "listing";
         URLPattern "^(?P<pk>\d+)/$" (router_aware_view "detail_view") "detail" ];
     Endpoint.get_model_listing_urlpath := λ _ namespace,
       Some (namespace ++ ":listing");
     Endpoint.get_object_detail_urlpath := λ _ pk namespace,
       if detail then Some (namespace ++ ":detail") else None |}.

Definition PagesAPIViewSet : Endpoint.t := viewset (Some Page) true.
Definition BlogPagesAPIViewSet : Endpoint.t := viewset (Some BlogPage) true.
Definition ImagesAPIViewSet : Endpoint.t := viewset (Some Image) false.
Definition OtherPagesAPIViewSet : Endpoint.t := viewset (Some Page) false.

Definition empty_router : t := __init__ 77 "api".

(** [api.register_endpoint("pages", ...); api.register_endpoint("images", ...)] *)
Definition site_router : t :=
  state_after
    (register_endpoint "pages" PagesAPIViewSet true;;
     register_endpoint "images" ImagesAPIViewSet true)
    empty_router.

(** A router with namespace "api" and one endpoint registered as "v2". *)
Definition v2_router : t :=
  state_after (register_endpoint "v2" PagesAPIViewSet true) empty_router.

Definition bare_request : HttpRequest :=
  {| request_path := "/api/pages/"; request_attrs := ∅ |}.

Definition no_args : CallArgs := {| args := []; kwargs := [] |}.
End Site.

(** * Properties *)

(** ** Ordered dictionaries *)

Section ordered_dict_facts.
Context {K V : Type} `{EqDecision K}.
Implicit Types (d : list (K * V)) (k : K) (v : V).

Lemma dict_get_setitem_eq d k v : dict_get (dict_setitem d k v) k = Some v.
Proof.
  induction d as [|[k' v'] d IH]; simpl.
  - by rewrite decide_True.
  - destruct (decide (k' = k)) as [->|Hne]; simpl.
    + by rewrite decide_True.
    + by rewrite decide_False.
Qed.

Lemma dict_get_setitem_ne d k k' v :
  k ≠ k' → dict_get (dict_setitem d k v) k' = dict_get d k'.
Proof.
  intros Hne. induction d as [|[k0 v0] d IH]; simpl.
  - by rewrite decide_False.
  - destruct (decide (k0 = k)) as [->|Hne0]; simpl.
    + by rewrite !decide_False.
    + by rewrite IH.
Qed.

Lemma dict_get_Some_keys d k v : dict_get d k = Some v → k ∈ dict_keys d.
Proof.
  induction d as [|[k0 v0] d IH]; simpl; [done|].
  destruct (decide (k0 = k)) as [->|Hne]; intros Hget.
  - apply list_elem_of_here.
  - apply list_elem_of_further, IH, Hget.
Qed.

Lemma dict_get_None_keys d k : dict_get d k = None ↔ k ∉ dict_keys d.
Proof.
  induction d as [|[k0 v0] d IH]; simpl.
  - split; [intros _; apply not_elem_of_nil | done].
  - destruct (decide (k0 = k)) as [->|Hne].
    + split; [done|]. intros Hnotin. destruct Hnotin. apply list_elem_of_here.
    + rewrite IH. unfold dict_keys. simpl. rewrite not_elem_of_cons.
      split; [by intros Hnotin; split | by intros [_ Hnotin]].
Qed.

Lemma dict_get_items d k v : dict_get d k = Some v → (k, v) ∈ dict_items d.
Proof.
  induction d as [|[k0 v0] d IH]; simpl; [done|].
  destruct (decide (k0 = k)) as [->|Hne]; intros Hget.
  - injection Hget as ->. apply list_elem_of_here.
  - apply list_elem_of_further, IH, Hget.
Qed.

(** Assignment keeps the position of a present key and appends a new one. *)
Lemma dict_keys_setitem d k v :
  dict_keys (dict_setitem d k v) =
  if decide (k ∈ dict_keys d) then dict_keys d else (dict_keys d ++ [k])%list.
Proof.
  unfold dict_keys. induction d as [|[k0 v0] d IH]; [done|].
  cbn [dict_setitem].
  destruct (decide (k0 = k)) as [->|Hne]; rewrite !fmap_cons; cbn [fst].
  - rewrite decide_True; [done | apply list_elem_of_here].
  - rewrite IH. destruct (decide (k ∈ d.*1)) as [Hin|Hnotin].
    + rewrite decide_True; [done | by apply list_elem_of_further].
    + rewrite decide_False; [done|].
      rewrite not_elem_of_cons. by split.
Qed.

Lemma dict_keys_setitem_NoDup d k v :
  NoDup (dict_keys d) → NoDup (dict_keys (dict_setitem d k v)).
Proof.
  intros Hwf. rewrite dict_keys_setitem. case_decide; [done|].
  apply NoDup_app. split_and!; [done| |apply NoDup_singleton].
  intros x Hx Hx'. apply list_elem_of_singleton in Hx'. by subst.
Qed.

(** With unique keys, the items under one key are exactly what [dict_get]
    finds. *)
Lemma dict_filter_key d k :
  NoDup (dict_keys d) →
  filter (λ item, item.1 = k) (dict_items d) =
  match dict_get d k with Some v => [(k, v)] | None => [] end.
Proof.
  unfold dict_keys, dict_items.
  induction d as [|[k0 v0] d IH]; simpl; [done|].
  intros [Hnotin Hnodup]%NoDup_cons.
  destruct (decide (k0 = k)) as [->|Hne].
  - rewrite filter_cons_True; [|done]. f_equal.
    rewrite IH; [|done].
    assert (dict_get d k = None) as -> by (by apply dict_get_None_keys).
    done.
  - rewrite filter_cons_False; [|done]. by apply IH.
Qed.
End ordered_dict_facts.

(** ** Running methods *)

Section method_facts.
Context {A B : Type}.
Implicit Types (self : t) (m : Method A) (k : A → Method B).

Lemma run_bind_returned m k self a self' :
  m self = (Returned a, self') → (m ≫= k) self = k a self'.
Proof. intros Hm. unfold mbind, method_bind, bind. by rewrite Hm. Qed.

Lemma run_bind_raised m k self e self' :
  m self = (Raised e, self') → (m ≫= k) self = (Raised e, self').
Proof. intros Hm. unfold mbind, method_bind, bind. by rewrite Hm. Qed.

Lemma run_mret (a : A) self : (mret a : Method A) self = (Returned a, self).
Proof. done. Qed.
End method_facts.

(** ** The ancestry walk *)

(** The walk returns the entry of the first class of the list that is a key
    of the index, and leaves the router as it was. *)
Lemma get_model_endpoint_loop_run classes self :
  get_model_endpoint_loop classes self =
  (Returned (head (omap (λ class_, _model2endpoint self !! class_) classes)), self).
Proof.
  induction classes as [|class_ rest IH]; [done|].
  cbn [get_model_endpoint_loop omap list_omap].
  erewrite run_bind_returned by reflexivity.
  destruct (_model2endpoint self !! class_) as [entry|] eqn:Hentry.
  - rewrite decide_True by eauto.
    unfold getitem. rewrite Hentry. done.
  - rewrite decide_False by (by intros [? ?]). apply IH.
Qed.

Lemma get_model_endpoint_run model specific self :
  get_model_endpoint model specific self =
  (Returned (head (omap (λ class_, _model2endpoint self !! class_) (__mro__ model))),
   self).
Proof. apply get_model_endpoint_loop_run. Qed.

Lemma first_entry_found {V} (index : gmap positive V) pre class_ post entry :
  Forall (λ c, index !! c = None) pre →
  index !! class_ = Some entry →
  head (omap (λ c, index !! c) (pre ++ class_ :: post)%list) = Some entry.
Proof.
  intros Hpre Hentry. induction Hpre as [|c pre Hc _ IH]; simpl.
  - by rewrite Hentry.
  - by rewrite Hc.
Qed.

Lemma first_entry_absent {V} (index : gmap positive V) classes :
  Forall (λ c, index !! c = None) classes →
  head (omap (λ c, index !! c) classes) = None.
Proof.
  intros Hall. induction Hall as [|c classes Hc _ IH]; simpl; [done|].
  by rewrite Hc.
Qed.

(** ** Registration *)

Lemma register_endpoint_run name class_ as_default_view self :
  register_endpoint name class_ as_default_view self =
  (Returned tt,
   {| self_id := self_id self;
      url_namespace := url_namespace self;
      _endpoints := dict_setitem (_endpoints self) name class_;
      _model2endpoint :=
        match as_default_view, Endpoint.model class_ with
        | true, Some model =>
            dict_setdefault (_model2endpoint self) (cls_id model) (name, class_)
        | _, _ => _model2endpoint self
        end |}).
Proof.
  unfold register_endpoint.
  erewrite run_bind_returned by reflexivity.
  by destruct as_default_view, (Endpoint.model class_).
Qed.

Lemma dict_setdefault_lookup {V} (d : gmap positive V) k v k' :
  dict_setdefault d k v !! k' =
  match d !! k' with
  | Some v' => Some v'
  | None => if decide (k = k') then Some v else None
  end.
Proof.
  unfold dict_setdefault. destruct (d !! k) as [v0|] eqn:Hk.
  - destruct (d !! k') eqn:Hk'; [done|].
    rewrite decide_False; [done | congruence].
  - destruct (decide (k = k')) as [<-|Hne].
    + by rewrite lookup_insert_eq, Hk.
    + rewrite lookup_insert_ne by done. by destruct (d !! k').
Qed.

Lemma reachable_dict_wf self : reachable self → dict_wf (_endpoints self).
Proof.
  induction 1 as [self ns | self name class_ adv _ IH].
  - apply NoDup_nil_2.
  - unfold state_after. rewrite register_endpoint_run. simpl.
    by apply dict_keys_setitem_NoDup.
Qed.

(** ** Claims about registration *)

(** C1: [register_endpoint name class_ as_default_view] returns normally and
    always stores [class_] under [name] in the registry, replacing whatever
    was there.  The model index gains [(name, class_)] under the endpoint's
    model exactly when [as_default_view] holds, the endpoint has a model and
    the model has no entry yet; in every other case the index is left as it
    was.  Hence, when a second endpoint is then registered under the same
    name as default for the same model, the registry resolves the name to
    the second while the model resolves as it did after the first
    registration: to the first endpoint, when the model had no default
    before. *)
Theorem register_endpoint_registry_and_default self name class_ as_default_view :
  let self' := state_after (register_endpoint name class_ as_default_view) self in
  result (register_endpoint name class_ as_default_view) self = Returned tt ∧
  dict_get (_endpoints self') name = Some class_ ∧
  (∀ model,
     as_default_view = true →
     Endpoint.model class_ = Some model →
     _model2endpoint self !! cls_id model = None →
     _model2endpoint self' =
       <[cls_id model := (name, class_)]> (_model2endpoint self)) ∧
  (as_default_view = false ∨
   Endpoint.model class_ = None ∨
   (∃ model, Endpoint.model class_ = Some model ∧
             is_Some (_model2endpoint self !! cls_id model)) →
   _model2endpoint self' = _model2endpoint self) ∧
  (∀ second model specific,
     Endpoint.model class_ = Some model →
     Endpoint.model second = Some model →
     as_default_view = true →
     let after_both := state_after (register_endpoint name second true) self' in
     dict_get (_endpoints after_both) name = Some second ∧
     result (get_model_endpoint model specific) after_both =
       result (get_model_endpoint model specific) self' ∧
     (_model2endpoint self !! cls_id model = None →
      result (get_model_endpoint model specific) after_both =
        Returned (Some (name, class_)))).
Proof.
  unfold state_after, result. rewrite register_endpoint_run. cbn [fst snd].
  split_and!.
  - done.
  - cbn [_endpoints]. apply dict_get_setitem_eq.
  - intros model -> Hmodel Hfree. cbn [_model2endpoint].
    rewrite Hmodel. unfold dict_setdefault. by rewrite Hfree.
  - cbn [_model2endpoint].
    intros [-> | [-> | (model & -> & [entry Hentry])]].
    + done.
    + by destruct as_default_view.
    + destruct as_default_view; [|done].
      unfold dict_setdefault. by rewrite Hentry.
  - intros second model specific Hfirst Hsecond ->.
    rewrite register_endpoint_run. cbn [snd _endpoints _model2endpoint].
    split; [apply dict_get_setitem_eq|].
    rewrite !get_model_endpoint_run. cbn [fst _model2endpoint].
    rewrite Hfirst, Hsecond. unfold __mro__. cbn [omap list_omap].
    rewrite !dict_setdefault_lookup.
    destruct (_model2endpoint self !! cls_id model) as [entry|] eqn:Hindex.
    + by split.
    + rewrite !decide_True by done. by split.
Qed.

Lemma register_endpoint_registry_and_default_witness :
  dict_get
    (_endpoints
       (state_after (register_endpoint "pages" Site.OtherPagesAPIViewSet true)
          (state_after (register_endpoint "pages" Site.PagesAPIViewSet true)
             Site.empty_router)))
    "pages" = Some Site.OtherPagesAPIViewSet ∧
  result (get_model_endpoint Site.Page false)
    (state_after (register_endpoint "pages" Site.OtherPagesAPIViewSet true)
       (state_after (register_endpoint "pages" Site.PagesAPIViewSet true)
          Site.empty_router))
  = Returned (Some ("pages", Site.PagesAPIViewSet)).
Proof.
  destruct (register_endpoint_registry_and_default
              Site.empty_router "pages" Site.PagesAPIViewSet true)
    as (_ & _ & _ & _ & Htwice).
  destruct (Htwice Site.OtherPagesAPIViewSet Site.Page false)
    as (Hregistry & _ & Hdefault); [reflexivity .. |].
  split; [exact Hregistry | apply Hdefault; reflexivity].
Defined.

(** C10: registration is confined to its own keys.  Registry entries under
    other names and index entries under other models are what they were,
    and no entry of either mapping disappears: every registered name stays
    registered and every index entry keeps its value. *)
Theorem register_endpoint_frame self name class_ as_default_view :
  let self' := state_after (register_endpoint name class_ as_default_view) self in
  (∀ other, other ≠ name →
     dict_get (_endpoints self') other = dict_get (_endpoints self) other) ∧
  (∀ key, (∀ model, Endpoint.model class_ = Some model → cls_id model ≠ key) →
     _model2endpoint self' !! key = _model2endpoint self !! key) ∧
  (∀ other, is_Some (dict_get (_endpoints self) other) →
     is_Some (dict_get (_endpoints self') other)) ∧
  (∀ key entry, _model2endpoint self !! key = Some entry →
     _model2endpoint self' !! key = Some entry) ∧
  url_namespace self' = url_namespace self ∧
  self_id self' = self_id self.
Proof.
  unfold state_after. rewrite register_endpoint_run.
  cbn [snd _endpoints _model2endpoint url_namespace self_id].
  split_and!; [| | | |done|done].
  - intros other Hne. by apply dict_get_setitem_ne.
  - intros key Hother.
    destruct as_default_view, (Endpoint.model class_) as [model|]; try done.
    rewrite dict_setdefault_lookup.
    destruct (_model2endpoint self !! key); [done|].
    rewrite decide_False; [done | by apply Hother].
  - intros other Hsome. destruct (decide (name = other)) as [->|Hne].
    + rewrite dict_get_setitem_eq. eauto.
    + by rewrite dict_get_setitem_ne.
  - intros key entry Hentry.
    destruct as_default_view, (Endpoint.model class_) as [model|]; try done.
    by rewrite dict_setdefault_lookup, Hentry.
Qed.

Lemma register_endpoint_frame_witness :
  dict_get
    (_endpoints
       (state_after (register_endpoint "documents" Site.BlogPagesAPIViewSet true)
          Site.site_router))
    "pages" = dict_get (_endpoints Site.site_router) "pages" ∧
  _model2endpoint
    (state_after (register_endpoint "documents" Site.BlogPagesAPIViewSet true)
       Site.site_router) !! cls_id Site.Page
  = Some ("pages", Site.PagesAPIViewSet).
Proof.
  destruct (register_endpoint_frame
              Site.site_router "documents" Site.BlogPagesAPIViewSet true)
    as (Hnames & _ & _ & Hkept & _).
  split.
  - apply Hnames. discriminate.
  - apply Hkept. reflexivity.
Defined.

(** ** Claims about reverse lookup *)

(** C2: [get_model_endpoint] walks the model's [__mro__], most derived
    class first, and returns the index entry of the first class that is a
    key of the index; when no class of the chain is a key it returns
    [None].  So a derived model without an entry of its own (and none on
    the classes between) resolves to the entry of its registered base, and
    once an endpoint is registered as default for the derived model itself,
    the derived model resolves to that endpoint while the base resolves as
    before. *)
Theorem get_model_endpoint_first_ancestor self model specific :
  (∀ pre class_ post entry,
     __mro__ model = (pre ++ class_ :: post)%list →
     Forall (λ c, _model2endpoint self !! c = None) pre →
     _model2endpoint self !! class_ = Some entry →
     get_model_endpoint model specific self = (Returned (Some entry), self)) ∧
  (Forall (λ c, _model2endpoint self !! c = None) (__mro__ model) →
   get_model_endpoint model specific self = (Returned None, self)) ∧
  (∀ base between post entry name2 class2,
     cls_ancestors model = (between ++ cls_id base :: post)%list →
     Forall (λ c, _model2endpoint self !! c = None) (cls_id model :: between) →
     _model2endpoint self !! cls_id base = Some entry →
     Endpoint.model class2 = Some model →
     let self' := state_after (register_endpoint name2 class2 true) self in
     result (get_model_endpoint model specific) self = Returned (Some entry) ∧
     result (get_model_endpoint base specific) self = Returned (Some entry) ∧
     result (get_model_endpoint model specific) self' =
       Returned (Some (name2, class2)) ∧
     result (get_model_endpoint base specific) self' = Returned (Some entry)).
Proof.
  split_and!.
  - intros pre class_ post entry Hmro Hpre Hentry.
    rewrite get_model_endpoint_run, Hmro.
    by rewrite (first_entry_found _ pre class_ post entry).
  - intros Hnone. rewrite get_model_endpoint_run.
    by rewrite first_entry_absent.
  - intros base between post entry name2 class2 Hanc Hnone Hbase Hmodel.
    unfold state_after, result.
    rewrite register_endpoint_run, !get_model_endpoint_run.
    cbn [fst snd _model2endpoint]. rewrite Hmodel.
    apply Forall_cons in Hnone as [Hself Hbetween].
    split_and!; f_equal.
    + unfold __mro__. rewrite Hanc.
      apply (first_entry_found _ (cls_id model :: between)); [|done].
      by apply Forall_cons.
    + unfold __mro__. cbn [omap list_omap]. by rewrite Hbase.
    + unfold __mro__. cbn [omap list_omap].
      by rewrite dict_setdefault_lookup, Hself, decide_True.
    + unfold __mro__. cbn [omap list_omap].
      by rewrite dict_setdefault_lookup, Hbase.
Qed.

Lemma get_model_endpoint_first_ancestor_witness :
  result (get_model_endpoint Site.BlogPage false) Site.site_router =
    Returned (Some ("pages", Site.PagesAPIViewSet)) ∧
  result (get_model_endpoint Site.Page false) Site.site_router =
    Returned (Some ("pages", Site.PagesAPIViewSet)) ∧
  result (get_model_endpoint Site.BlogPage false)
    (state_after (register_endpoint "blog" Site.BlogPagesAPIViewSet true)
       Site.site_router) =
    Returned (Some ("blog", Site.BlogPagesAPIViewSet)) ∧
  result (get_model_endpoint Site.Page false)
    (state_after (register_endpoint "blog" Site.BlogPagesAPIViewSet true)
       Site.site_router) =
    Returned (Some ("pages", Site.PagesAPIViewSet)).
Proof.
  destruct (get_model_endpoint_first_ancestor Site.site_router Site.BlogPage false)
    as (_ & _ & Hderived).
  apply (Hderived Site.Page [] [Site.Model_; Site.object_]
           ("pages", Site.PagesAPIViewSet) "blog" Site.BlogPagesAPIViewSet).
  - reflexivity.
  - repeat constructor.
  - reflexivity.
  - reflexivity.
Defined.

(** C4: when neither the model nor any class of its ancestry is a key of
    the index, [get_model_endpoint], [get_model_listing_urlpath] and
    [get_object_detail_urlpath] each return [None]; none of them raises,
    and the router is left as it was. *)
Theorem unregistered_model_returns_None self model specific pk :
  Forall (λ c, _model2endpoint self !! c = None) (__mro__ model) →
  get_model_endpoint model specific self = (Returned None, self) ∧
  get_model_listing_urlpath model self = (Returned None, self) ∧
  get_object_detail_urlpath model pk self = (Returned None, self).
Proof.
  intros Hnone.
  assert (∀ s, get_model_endpoint model s self = (Returned None, self)) as Hrun.
  { intros s. rewrite get_model_endpoint_run. by rewrite first_entry_absent. }
  split_and!.
  - apply Hrun.
  - unfold get_model_listing_urlpath.
    by erewrite run_bind_returned by apply Hrun.
  - unfold get_object_detail_urlpath.
    by erewrite run_bind_returned by apply Hrun.
Qed.

Lemma unregistered_model_returns_None_witness :
  get_model_endpoint Site.Document false Site.site_router =
    (Returned None, Site.site_router) ∧
  get_model_listing_urlpath Site.Document Site.site_router =
    (Returned None, Site.site_router) ∧
  get_object_detail_urlpath Site.Document 5 Site.site_router =
    (Returned None, Site.site_router).
Proof.
  apply (unregistered_model_returns_None Site.site_router Site.Document false 5).
  repeat constructor.
Defined.

(** C3: when the model resolves to [(name, endpoint_class)], the listing
    path is what [endpoint_class]'s listing builder returns for the model
    and the namespace [url_namespace ++ ":" ++ name], and the detail path is
    what its detail builder returns for the model, the key and that
    namespace.  With router namespace "api" and endpoint name "v2" the
    namespace is "api:v2".  A builder's [None] comes back as [None]. *)
Theorem urlpath_delegates_to_endpoint self model name endpoint_class pk :
  result (get_model_endpoint model false) self =
    Returned (Some (name, endpoint_class)) →
  let url_namespace := url_namespace self ++ ":" ++ name in
  get_model_listing_urlpath model self =
    (Returned (Endpoint.get_model_listing_urlpath endpoint_class model url_namespace),
     self) ∧
  get_object_detail_urlpath model pk self =
    (Returned (Endpoint.get_object_detail_urlpath endpoint_class model pk url_namespace),
     self) ∧
  (WagtailAPIRouter.url_namespace self = "api" → name = "v2" →
   url_namespace = "api:v2") ∧
  (Endpoint.get_model_listing_urlpath endpoint_class model url_namespace = None →
   result (get_model_listing_urlpath model) self = Returned None) ∧
  (Endpoint.get_object_detail_urlpath endpoint_class model pk url_namespace = None →
   result (get_object_detail_urlpath model pk) self = Returned None).
Proof.
  intros Hresolved ns.
  assert (get_model_endpoint model false self =
          (Returned (Some (name, endpoint_class)), self)) as Hrun.
  { revert Hresolved. unfold result.
    rewrite get_model_endpoint_run. cbn [fst]. by intros ->. }
  assert (get_model_listing_urlpath model self =
          (Returned (Endpoint.get_model_listing_urlpath endpoint_class model ns),
           self)) as Hlisting.
  { unfold get_model_listing_urlpath.
    by erewrite run_bind_returned by apply Hrun. }
  assert (get_object_detail_urlpath model pk self =
          (Returned (Endpoint.get_object_detail_urlpath endpoint_class model pk ns),
           self)) as Hdetail.
  { unfold get_object_detail_urlpath.
    by erewrite run_bind_returned by apply Hrun. }
  split_and!; [done | done | | |].
  - intros Hns ->. unfold ns. by rewrite Hns.
  - intros Hnone. unfold result. by rewrite Hlisting, Hnone.
  - intros Hnone. unfold result. by rewrite Hdetail, Hnone.
Qed.

Lemma urlpath_delegates_to_endpoint_witness :
  get_model_listing_urlpath Site.BlogPage Site.v2_router =
    (Returned (Some "api:v2:listing"), Site.v2_router) ∧
  get_object_detail_urlpath Site.BlogPage 5 Site.v2_router =
    (Returned (Some "api:v2:detail"), Site.v2_router) ∧
  result (get_object_detail_urlpath Site.Image 5) Site.site_router = Returned None.
Proof.
  destruct (urlpath_delegates_to_endpoint
              Site.v2_router Site.BlogPage "v2" Site.PagesAPIViewSet 5)
    as (Hlisting & Hdetail & _); [reflexivity|].
  destruct (urlpath_delegates_to_endpoint
              Site.site_router Site.Image "images" Site.ImagesAPIViewSet 5)
    as (_ & _ & _ & _ & Habsent); [reflexivity|].
  split_and!; [exact Hlisting | exact Hdetail | apply Habsent; reflexivity].
Defined.

(** C8: [get_model_endpoint] only reads.  After the call the router, and so
    its registry and its model index, is what it was before; the same holds
    for the other lookups and for URL assembly, which leaves registration
    as the only method that changes either mapping. *)
Theorem get_model_endpoint_pure_read self model specific :
  state_after (get_model_endpoint model specific) self = self ∧
  _endpoints (state_after (get_model_endpoint model specific) self) =
    _endpoints self ∧
  _model2endpoint (state_after (get_model_endpoint model specific) self) =
    _model2endpoint self ∧
  (∀ pk,
     state_after (get_model_listing_urlpath model) self = self ∧
     state_after (get_object_detail_urlpath model pk) self = self) ∧
  state_after get_urlpatterns self = self ∧
  state_after urls self = self.
Proof.
  assert (state_after (get_model_endpoint model specific) self = self) as Hsame.
  { unfold state_after. by rewrite get_model_endpoint_run. }
  rewrite Hsame. split_and!; try done.
  intros pk. unfold state_after, get_model_listing_urlpath, get_object_detail_urlpath.
  erewrite !run_bind_returned by apply get_model_endpoint_run.
  by destruct (head _).
Qed.

(** C9: the [specific] argument of [get_model_endpoint] is never consulted:
    both of its values give the same outcome, result and router alike. *)
Theorem get_model_endpoint_ignores_specific self model :
  get_model_endpoint model true self = get_model_endpoint model false self ∧
  ∀ specific1 specific2,
    result (get_model_endpoint model specific1) self =
    result (get_model_endpoint model specific2) self.
Proof.
  split; [|intros specific1 specific2; unfold result];
    by rewrite !get_model_endpoint_run.
Qed.

(** ** URL assembly *)

Lemma get_urlpatterns_loop_run items urlpatterns :
  get_urlpatterns_loop items urlpatterns =
  (urlpatterns ++
   map (λ item, re_path ("^" ++ item.1 ++ "/")
                  (include (Endpoint.get_urlpatterns item.2, item.1) item.1))
       items)%list.
Proof.
  revert urlpatterns. induction items as [|[name class_] rest IH]; intros acc.
  - simpl. by rewrite app_nil_r.
  - cbn [get_urlpatterns_loop map]. rewrite IH, <- app_assoc. done.
Qed.

Lemma get_urlpatterns_run self :
  get_urlpatterns self =
  (Returned (map (endpoint_fragment self) (dict_items (_endpoints self))), self).
Proof.
  unfold get_urlpatterns. erewrite run_bind_returned by reflexivity.
  rewrite run_mret, get_urlpatterns_loop_run. cbn [app].
  unfold decorate_urlpatterns at 1. by rewrite map_map.
Qed.

Lemma decorate_route_regex decorator p :
  route_regex (decorate_route decorator p) = route_regex p.
Proof. by destruct p. Qed.

Lemma decorate_route_views decorator p :
  route_views (decorate_route decorator p) = map decorator (route_views p).
Proof.
  induction p as [regex callback name | regex url_patterns app_name namespace IH]
    using Route_nested_ind; [done|].
  cbn [decorate_route route_views]. rewrite map_map.
  induction IH as [|p' l' Hp' _ IHl]; [done|].
  cbn [map concat]. by rewrite map_app, Hp', IHl.
Qed.

Lemma decorate_urlpatterns_views decorator urlpatterns :
  concat (map route_views (decorate_urlpatterns urlpatterns decorator)) =
  map decorator (concat (map route_views urlpatterns)).
Proof.
  unfold decorate_urlpatterns.
  induction urlpatterns as [|p l IH]; [done|].
  cbn [map concat]. by rewrite map_app, decorate_route_views, IH.
Qed.

Lemma decorate_route_wrapped self p :
  wrapped_by self (decorate_route (wrap_view self) p).
Proof.
  induction p as [regex callback name | regex url_patterns app_name namespace IH]
    using Route_nested_ind; cbn [decorate_route].
  - constructor.
  - constructor. by apply Forall_fmap.
Qed.

Lemma wrapped_by_views self p view :
  wrapped_by self p → view ∈ route_views p → ∃ func, view = wrap_view self func.
Proof.
  revert view.
  induction p as [regex callback name | regex url_patterns app_name namespace IH]
    using Route_nested_ind; intros view Hwrapped Hview.
  - inversion Hwrapped; subst. apply list_elem_of_singleton in Hview. eauto.
  - inversion Hwrapped as [|? ? ? ? Hall]; subst.
    cbn [route_views] in Hview.
    apply list_elem_of_In, in_concat in Hview as (views & Hviews & Hview).
    apply list_elem_of_In in Hviews, Hview.
    apply list_elem_of_fmap in Hviews as (p' & -> & Hp').
    rewrite Forall_forall in IH, Hall. eauto.
Qed.

Lemma filter_namespace_fragments self name items :
  filter (λ p, route_namespace p = Some name) (map (endpoint_fragment self) items) =
  map (endpoint_fragment self) (filter (λ item, item.1 = name) items).
Proof.
  induction items as [|[name' class_] rest IH]; [done|].
  cbn [map]. destruct (decide (name' = name)) as [->|Hne].
  - rewrite !filter_cons_True by done. cbn [map]. by rewrite IH.
  - rewrite !filter_cons_False; [done | done |].
    cbn [endpoint_fragment route_namespace fst]. congruence.
Qed.

Lemma endpoint_fragments_views self items :
  concat (map route_views (map (endpoint_fragment self) items)) =
  map (wrap_view self)
      (concat (map (λ item, concat (map route_views (Endpoint.get_urlpatterns item.2)))
                   items)).
Proof.
  induction items as [|item rest IH]; [done|].
  cbn [map concat]. rewrite map_app, <- IH. f_equal.
  cbn [endpoint_fragment route_views]. apply decorate_urlpatterns_views.
Qed.

(** ** Claims about URL assembly *)

(** C5: [get_urlpatterns] returns one top-level fragment per item of the
    registry, in registration order: the fragment for [name] has the
    pattern "^name/" and includes the endpoint's own routes (each with its
    own pattern, its handler decorated) under application and instance
    namespace [name].  As the names of a registry are unique, every
    registered name has exactly one fragment and no other name has any. *)
Theorem get_urlpatterns_one_fragment_per_name self :
  dict_wf (_endpoints self) →
  ∃ urlpatterns,
    get_urlpatterns self = (Returned urlpatterns, self) ∧
    urlpatterns = map (endpoint_fragment self) (dict_items (_endpoints self)) ∧
    length urlpatterns = length (dict_keys (_endpoints self)) ∧
    map route_regex urlpatterns =
      map (λ name, "^" ++ name ++ "/") (dict_keys (_endpoints self)) ∧
    map route_namespace urlpatterns = map Some (dict_keys (_endpoints self)) ∧
    map route_app_name urlpatterns = map Some (dict_keys (_endpoints self)) ∧
    Forall (λ item,
       map route_regex (route_url_patterns (endpoint_fragment self item)) =
       map route_regex (Endpoint.get_urlpatterns item.2))
      (dict_items (_endpoints self)) ∧
    ∀ name,
      filter (λ p, route_namespace p = Some name) urlpatterns =
      match dict_get (_endpoints self) name with
      | Some class_ =>
          [URLResolver ("^" ++ name ++ "/")
             (decorate_urlpatterns (Endpoint.get_urlpatterns class_) (wrap_view self))
             name name]
      | None => []
      end.
Proof.
  intros Hwf. eexists. split; [apply get_urlpatterns_run|].
  unfold dict_items, dict_keys.
  split_and!; [done | | | | | |].
  - by rewrite length_map, length_fmap.
  - clear Hwf. rewrite map_map.
    induction (_endpoints self) as [|[name class_] rest IH]; [done|].
    simpl. by f_equal.
  - clear Hwf. rewrite map_map.
    induction (_endpoints self) as [|[name class_] rest IH]; [done|].
    simpl. by f_equal.
  - clear Hwf. rewrite map_map.
    induction (_endpoints self) as [|[name class_] rest IH]; [done|].
    simpl. by f_equal.
  - apply Forall_forall. intros [name class_] _.
    cbn [endpoint_fragment route_url_patterns snd].
    unfold decorate_urlpatterns. rewrite map_map.
    apply map_ext. intros p. apply decorate_route_regex.
  - intros name. rewrite filter_namespace_fragments.
    rewrite (dict_filter_key (_endpoints self) name Hwf).
    by destruct (dict_get (_endpoints self) name).
Qed.

Lemma get_urlpatterns_one_fragment_per_name_witness :
  ∃ urlpatterns,
    result get_urlpatterns Site.site_router = Returned urlpatterns ∧
    length urlpatterns = 2 ∧
    map route_regex urlpatterns = ["^pages/"; "^images/"] ∧
    map route_namespace urlpatterns = [Some "pages"; Some "images"] ∧
    map (λ p, map route_regex (route_url_patterns p)) urlpatterns =
      [["^$"; "^(?P<pk>\d+)/$"]; ["^$"; "^(?P<pk>\d+)/$"]].
Proof.
  destruct (get_urlpatterns_one_fragment_per_name Site.site_router)
    as (urlpatterns & Hrun & -> & Hlength & Hregex & Hnamespace & _).
  { apply (bool_decide_unpack _). vm_compute. exact I. }
  eexists. unfold result. rewrite Hrun.
  split_and!; [reflexivity | exact Hlength | exact Hregex | exact Hnamespace
              | vm_compute; reflexivity].
Defined.

(** C6: every fragment that [get_urlpatterns] returns, the nested ones
    included, has its handlers wrapped by [wrap_view] of this router: the
    views reachable from the result are the endpoints' own views, each
    wrapped.  A wrapped view stores the reference to the router under
    [wagtailapi_router] on the request and then calls the inner handler on
    that very request, so the inner handler only ever sees requests that
    carry the router; [functools.wraps] keeps the handler's name and
    documentation. *)
Theorem get_urlpatterns_views_wrapped self :
  ∃ urlpatterns,
    result get_urlpatterns self = Returned urlpatterns ∧
    Forall (wrapped_by self) urlpatterns ∧
    concat (map route_views urlpatterns) =
      map (wrap_view self)
          (concat (map (λ item, concat (map route_views
                                          (Endpoint.get_urlpatterns item.2)))
                       (dict_items (_endpoints self)))) ∧
    Forall (λ view, ∃ func, view = wrap_view self func)
           (concat (map route_views urlpatterns)) ∧
    ∀ func request a,
      let request' := setattr request "wagtailapi_router" (self_id self) in
      view_call (wrap_view self func) request a = view_call func request' a ∧
      getattr request' "wagtailapi_router" = Some (self_id self) ∧
      request_path request' = request_path request ∧
      view_name (wrap_view self func) = view_name func ∧
      view_doc (wrap_view self func) = view_doc func.
Proof.
  eexists. unfold result. rewrite get_urlpatterns_run. cbn [fst].
  split_and!; [done | | | |].
  - apply Forall_forall. intros p Hp.
    apply list_elem_of_fmap in Hp as ([name class_] & -> & _).
    constructor. unfold decorate_urlpatterns.
    apply Forall_fmap, Forall_forall. intros p _. apply decorate_route_wrapped.
  - apply endpoint_fragments_views.
  - rewrite endpoint_fragments_views. apply Forall_fmap, Forall_forall.
    intros func _. by exists func.
  - intros func request a. cbn zeta. split_and!; try done.
    unfold getattr, setattr. cbn [request_attrs]. apply lookup_insert_eq.
Qed.

Lemma get_urlpatterns_views_wrapped_witness :
  (view_call (wrap_view Site.site_router (Site.router_aware_view "listing_view"))
     Site.bare_request Site.no_args).1 =
    Returned {| status_code := 200; content := "listing_view" |} ∧
  (view_call (Site.router_aware_view "listing_view")
     Site.bare_request Site.no_args).1 =
    Returned {| status_code := 500; content := "no router" |}.
Proof.
  destruct (get_urlpatterns_views_wrapped Site.site_router)
    as (urlpatterns & _ & _ & _ & _ & Hcall).
  destruct (Hcall (Site.router_aware_view "listing_view")
              Site.bare_request Site.no_args) as (-> & _).
  split; vm_compute; reflexivity.
Defined.

(** C7: [urls] returns the list of [get_urlpatterns] together with the
    router's namespace twice, and leaves the router as it was; two calls in
    a row therefore return equal triples. *)
Theorem urls_same_on_every_call self :
  ∃ urlpatterns,
    get_urlpatterns self = (Returned urlpatterns, self) ∧
    urls self =
      (Returned (urlpatterns, url_namespace self, url_namespace self), self) ∧
    (urls ≫= λ first, urls ≫= λ second, mret (first, second)) self =
      (Returned ((urlpatterns, url_namespace self, url_namespace self),
                 (urlpatterns, url_namespace self, url_namespace self)),
       self).
Proof.
  eexists. split; [apply get_urlpatterns_run|].
  assert (urls self =
          (Returned (map (endpoint_fragment self) (dict_items (_endpoints self)),
                     url_namespace self, url_namespace self), self)) as Hurls.
  { unfold urls. by erewrite run_bind_returned by apply get_urlpatterns_run. }
  split; [done|].
  erewrite run_bind_returned by apply Hurls.
  by erewrite run_bind_returned by apply Hurls.
Qed.

(** ** The example site, evaluated *)

Example site_router_names :
  dict_keys (_endpoints Site.site_router) = ["pages"; "images"].
Proof. reflexivity. Qed.

Example site_router_reachable : reachable Site.site_router.
Proof.
  apply (reachable_register
           (state_after (register_endpoint "pages" Site.PagesAPIViewSet true)
              Site.empty_router)
           "images" Site.ImagesAPIViewSet true).
  apply reachable_register, reachable_init.
Qed.

Example every_site_view_sees_the_router :
  (λ view, status_code <$>
           match (view_call view Site.bare_request Site.no_args).1 with
           | Returned response => Some response
           | Raised _ => None
           end)
  <$> match result get_urlpatterns Site.site_router with
      | Returned urlpatterns => concat (map route_views urlpatterns)
      | Raised _ => []
      end
  = [Some 200; Some 200; Some 200; Some 200]%Z.
Proof. vm_compute. reflexivity. Qed.

Example blog_page_listing_path :
  result (get_model_listing_urlpath Site.BlogPage) Site.site_router =
  Returned (Some "api:pages:listing").
Proof. vm_compute. reflexivity. Qed.


(** * Further properties of the router *)

(** ** Helper facts *)

Lemma dict_setitem_idem {V} (d : list (string * V)) k v :
  dict_setitem (dict_setitem d k v) k v = dict_setitem d k v.
Proof.
  induction d as [|[k0 v0] d IH]; cbn [dict_setitem].
  - by rewrite decide_True.
  - destruct (decide (k0 = k)) as [->|Hne]; cbn [dict_setitem].
    + by rewrite decide_True.
    + by rewrite decide_False, IH.
Qed.

Lemma dict_setdefault_idem {V} (d : gmap positive V) k v :
  dict_setdefault (dict_setdefault d k v) k v = dict_setdefault d k v.
Proof.
  unfold dict_setdefault. destruct (d !! k) eqn:Hk.
  - by rewrite Hk.
  - by rewrite lookup_insert_eq.
Qed.

Lemma dict_setdefault_commute {V} (d : gmap positive V) k1 v1 k2 v2 :
  k1 ≠ k2 →
  dict_setdefault (dict_setdefault d k1 v1) k2 v2 =
  dict_setdefault (dict_setdefault d k2 v2) k1 v1.
Proof.
  intros Hne. apply map_eq. intros k.
  rewrite !dict_setdefault_lookup.
  destruct (d !! k); [done|].
  repeat case_decide; congruence.
Qed.

Lemma dict_setdefault_subseteq {V} (d : gmap positive V) k v :
  d ⊆ dict_setdefault d k v.
Proof.
  unfold dict_setdefault. destruct (d !! k) eqn:Hk; [done|].
  by apply insert_subseteq.
Qed.

Lemma dict_keys_setitem_prefix {V} (d : list (string * V)) k v :
  dict_keys d `prefix_of` dict_keys (dict_setitem d k v).
Proof.
  rewrite dict_keys_setitem. case_decide; [done|]. by apply prefix_app_r.
Qed.

Lemma dict_get_is_Some_keys {V} (d : list (string * V)) k :
  is_Some (dict_get d k) ↔ k ∈ dict_keys d.
Proof.
  rewrite <- not_eq_None_Some, dict_get_None_keys.
  split; [apply dec_stable | by intros Hin Hnotin].
Qed.

(** The walk only ever returns an entry stored under a class of the list. *)
Lemma first_entry_from_list {V} (index : gmap positive V) classes entry :
  head (omap (λ c, index !! c) classes) = Some entry →
  ∃ c, c ∈ classes ∧ index !! c = Some entry.
Proof.
  induction classes as [|c classes IH]; [done|].
  cbn [omap list_omap]. destruct (index !! c) as [e|] eqn:Hc.
  - intros [= ->]. exists c. split; [apply list_elem_of_here | done].
  - intros (c' & Hin & Hentry)%IH. exists c'.
    split; [by apply list_elem_of_further | done].
Qed.

(** The walk looks at the index only under the classes of the list. *)
Lemma first_entry_ext {V} (index index' : gmap positive V) classes :
  Forall (λ c, index' !! c = index !! c) classes →
  head (omap (λ c, index' !! c) classes) = head (omap (λ c, index !! c) classes).
Proof.
  intros Hsame. induction Hsame as [|c classes Hc _ IH]; [done|].
  cbn [omap list_omap]. rewrite Hc. by destruct (index !! c).
Qed.

Lemma urlpath_run_from_endpoint self model pk :
  get_model_listing_urlpath model self =
    (Returned
       (match head (omap (λ c, _model2endpoint self !! c) (__mro__ model)) with
        | Some endpoint =>
            Endpoint.get_model_listing_urlpath endpoint.2 model
              (url_namespace self ++ ":" ++ endpoint.1)
        | None => None
        end), self) ∧
  get_object_detail_urlpath model pk self =
    (Returned
       (match head (omap (λ c, _model2endpoint self !! c) (__mro__ model)) with
        | Some endpoint =>
            Endpoint.get_object_detail_urlpath endpoint.2 model pk
              (url_namespace self ++ ":" ++ endpoint.1)
        | None => None
        end), self).
Proof.
  unfold get_model_listing_urlpath, get_object_detail_urlpath.
  erewrite !run_bind_returned by apply get_model_endpoint_run.
  by destruct (head _).
Qed.

(** In every state built by registration calls, an index entry stored under
    a class belongs to an endpoint whose model is that class, and its name
    is a registered name. *)
Lemma reachable_index_consistent self :
  reachable self →
  ∀ key name class_,
    _model2endpoint self !! key = Some (name, class_) →
    (∃ model, Endpoint.model class_ = Some model ∧ cls_id model = key) ∧
    name ∈ dict_keys (_endpoints self).
Proof.
  induction 1 as [self ns | self name0 class0 adv _ IH]; intros key name class_.
  - cbn [__init__ _model2endpoint]. by rewrite lookup_empty.
  - unfold state_after. rewrite register_endpoint_run.
    cbn [snd _endpoints _model2endpoint]. intros Hentry.
    assert (∀ n, n ∈ dict_keys (_endpoints self) →
                 n ∈ dict_keys (dict_setitem (_endpoints self) name0 class0))
      as Hkept.
    { intros n Hn.
      destruct (dict_keys_setitem_prefix (_endpoints self) name0 class0)
        as [rest ->].
      apply elem_of_app. by left. }
    destruct adv, (Endpoint.model class0) as [model0|] eqn:Hmodel0;
      try (destruct (IH _ _ _ Hentry) as [Hmodel Hname]; by auto).
    rewrite dict_setdefault_lookup in Hentry.
    destruct (_model2endpoint self !! key) as [entry|] eqn:Hkey.
    + injection Hentry as ->. destruct (IH _ _ _ Hkey) as [Hmodel Hname]. by auto.
    + case_decide as Heq; [|done]. injection Hentry as <- <-.
      split; [by exists model0|].
      apply dict_get_is_Some_keys. rewrite dict_get_setitem_eq. eauto.
Qed.

Lemma endpoint_fragments_regex self (items : list (string * Endpoint.t)) :
  map route_regex (map (endpoint_fragment self) items) =
  map (λ name, "^" ++ name ++ "/") (dict_keys items).
Proof.
  unfold dict_keys. induction items as [|[name class_] rest IH]; [done|].
  simpl. by f_equal.
Qed.

Lemma endpoint_fragments_namespace self (items : list (string * Endpoint.t)) :
  map route_namespace (map (endpoint_fragment self) items) =
  map Some (dict_keys items).
Proof.
  unfold dict_keys. induction items as [|[name class_] rest IH]; [done|].
  simpl. by f_equal.
Qed.

Lemma endpoint_fragments_app_name self (items : list (string * Endpoint.t)) :
  map route_app_name (map (endpoint_fragment self) items) =
  map Some (dict_keys items).
Proof.
  unfold dict_keys. induction items as [|[name class_] rest IH]; [done|].
  simpl. by f_equal.
Qed.

(** ** A fresh router *)

(** X1: a router fresh from [__init__] has nothing registered: every model,
    whatever its ancestry, resolves to [None] and has no listing or detail
    path, [get_urlpatterns] returns the empty list and [urls] the empty list
    with the namespace twice. *)
Theorem fresh_router_resolves_nothing self url_namespace model specific pk :
  let router := __init__ self url_namespace in
  get_model_endpoint model specific router = (Returned None, router) ∧
  get_model_listing_urlpath model router = (Returned None, router) ∧
  get_object_detail_urlpath model pk router = (Returned None, router) ∧
  get_urlpatterns router = (Returned [], router) ∧
  urls router = (Returned ([], url_namespace, url_namespace), router).
Proof.
  intros router.
  assert (head (omap (λ c, _model2endpoint router !! c) (__mro__ model)) = None)
    as Hnone.
  { apply first_entry_absent, Forall_forall. intros c _. apply lookup_empty. }
  destruct (urlpath_run_from_endpoint router model pk) as [Hlisting Hdetail].
  rewrite Hnone in Hlisting, Hdetail.
  split_and!; try done.
  by rewrite get_model_endpoint_run, Hnone.
Qed.

(** ** Registration: order, repetition, independence *)

(** X2: the fragments of [get_urlpatterns] follow the order in which names
    were first registered.  Registering a name that is already there keeps
    the number and the order of the fragments; registering a new name adds
    one fragment, the last, with pattern "^name/".  Either way the result
    then holds the fragment of the endpoint just registered. *)
Theorem register_endpoint_fragment_order self name class_ as_default_view :
  let self' := state_after (register_endpoint name class_ as_default_view) self in
  ∃ before after,
    get_urlpatterns self = (Returned before, self) ∧
    get_urlpatterns self' = (Returned after, self') ∧
    map route_regex after =
      (if decide (name ∈ dict_keys (_endpoints self))
       then map route_regex before
       else (map route_regex before ++ [("^" ++ name ++ "/")%string])%list) ∧
    map route_namespace after =
      (if decide (name ∈ dict_keys (_endpoints self))
       then map route_namespace before
       else (map route_namespace before ++ [Some name])%list) ∧
    endpoint_fragment self' (name, class_) ∈ after.
Proof.
  intros self'. do 2 eexists.
  split; [apply get_urlpatterns_run|]. split; [apply get_urlpatterns_run|].
  unfold dict_items.
  rewrite !endpoint_fragments_regex, !endpoint_fragments_namespace.
  assert (_endpoints self' = dict_setitem (_endpoints self) name class_) as ->.
  { unfold self', state_after. by rewrite register_endpoint_run. }
  rewrite dict_keys_setitem. split_and!.
  - case_decide; [done|]. by rewrite map_app.
  - case_decide; [done|]. by rewrite map_app.
  - apply list_elem_of_In, in_map, list_elem_of_In.
    apply (dict_get_items (dict_setitem (_endpoints self) name class_)).
    apply dict_get_setitem_eq.
Qed.

(** X3: registering the same endpoint under the same name twice leaves the
    router exactly as registering it once. *)
Theorem register_endpoint_idempotent self name class_ as_default_view :
  state_after (register_endpoint name class_ as_default_view)
    (state_after (register_endpoint name class_ as_default_view) self) =
  state_after (register_endpoint name class_ as_default_view) self.
Proof.
  unfold state_after. rewrite !register_endpoint_run.
  cbn [snd self_id url_namespace _endpoints _model2endpoint].
  rewrite dict_setitem_idem. f_equal.
  destruct as_default_view, (Endpoint.model class_); try done.
  apply dict_setdefault_idem.
Qed.

(** X4: two registrations under different names, for endpoints that do not
    share a model, can be made in either order: the registry resolves every
    name alike, holds the same names, the index is the same, and so every
    model resolves alike.  (Only the order of the fragments differs.) *)
Theorem register_endpoint_commute self name1 class1 default1 name2 class2 default2 :
  name1 ≠ name2 →
  (∀ model1 model2,
     Endpoint.model class1 = Some model1 →
     Endpoint.model class2 = Some model2 →
     cls_id model1 ≠ cls_id model2) →
  let first_then_second :=
    state_after (register_endpoint name2 class2 default2)
      (state_after (register_endpoint name1 class1 default1) self) in
  let second_then_first :=
    state_after (register_endpoint name1 class1 default1)
      (state_after (register_endpoint name2 class2 default2) self) in
  (∀ name, dict_get (_endpoints first_then_second) name =
           dict_get (_endpoints second_then_first) name) ∧
  dict_keys (_endpoints first_then_second) ≡ₚ
    dict_keys (_endpoints second_then_first) ∧
  _model2endpoint first_then_second = _model2endpoint second_then_first ∧
  ∀ model specific,
    result (get_model_endpoint model specific) first_then_second =
    result (get_model_endpoint model specific) second_then_first.
Proof.
  intros Hnames Hmodels first_then_second second_then_first.
  assert (_model2endpoint first_then_second = _model2endpoint second_then_first)
    as Hindex.
  { unfold first_then_second, second_then_first, state_after.
    rewrite !register_endpoint_run. cbn [snd _model2endpoint].
    destruct default1, default2,
      (Endpoint.model class1) as [model1|], (Endpoint.model class2) as [model2|];
      try done.
    apply dict_setdefault_commute. by apply Hmodels. }
  unfold first_then_second, second_then_first, state_after in *.
  rewrite !register_endpoint_run in *. cbn [snd _endpoints] in *.
  split_and!.
  - intros name.
    destruct (decide (name = name1)) as [->|Hne1];
      [|destruct (decide (name = name2)) as [->|Hne2]].
    + rewrite dict_get_setitem_ne, !dict_get_setitem_eq by done. done.
    + rewrite dict_get_setitem_eq, dict_get_setitem_ne, dict_get_setitem_eq by done.
      done.
    + by rewrite !dict_get_setitem_ne by done.
  - rewrite !dict_keys_setitem.
    repeat case_decide; try done;
      repeat match goal with
             | H : _ ∈ (_ ++ [_])%list |- _ =>
                 apply elem_of_app in H as [H | H%list_elem_of_singleton]
             | H : ¬ _ ∈ (_ ++ [_])%list |- _ =>
                 rewrite elem_of_app, list_elem_of_singleton in H
             end; try tauto; try congruence.
    rewrite <- !(assoc_L (++)). apply Permutation_app_head, perm_swap.
  - exact Hindex.
  - intros model specific. unfold result.
    rewrite !get_model_endpoint_run. cbn [fst]. by rewrite Hindex.
Qed.

Lemma register_endpoint_commute_witness :
  result (get_model_endpoint Site.BlogPage false)
    (state_after (register_endpoint "images" Site.ImagesAPIViewSet true)
       (state_after (register_endpoint "pages" Site.PagesAPIViewSet true)
          Site.empty_router)) =
  result (get_model_endpoint Site.BlogPage false)
    (state_after (register_endpoint "pages" Site.PagesAPIViewSet true)
       (state_after (register_endpoint "images" Site.ImagesAPIViewSet true)
          Site.empty_router)).
Proof.
  destruct (register_endpoint_commute Site.empty_router
              "pages" Site.PagesAPIViewSet true
              "images" Site.ImagesAPIViewSet true)
    as (_ & _ & _ & Hsame).
  - discriminate.
  - intros model1 model2 [= <-] [= <-]. discriminate.
  - apply Hsame.
Defined.

(** X5: registering an endpoint changes what a model resolves to only if
    the endpoint is registered as a default, has a model, that model had no
    entry yet and is the model itself or one of its ancestors.  In every
    other case [get_model_endpoint], [get_model_listing_urlpath] and
    [get_object_detail_urlpath] answer for the model as they did before. *)
Theorem register_endpoint_lookup_frame
    self name class_ as_default_view model specific pk :
  as_default_view = false ∨
  Endpoint.model class_ = None ∨
  (∃ registered,
     Endpoint.model class_ = Some registered ∧
     (cls_id registered ∉ __mro__ model ∨
      is_Some (_model2endpoint self !! cls_id registered))) →
  let self' := state_after (register_endpoint name class_ as_default_view) self in
  result (get_model_endpoint model specific) self' =
    result (get_model_endpoint model specific) self ∧
  result (get_model_listing_urlpath model) self' =
    result (get_model_listing_urlpath model) self ∧
  result (get_object_detail_urlpath model pk) self' =
    result (get_object_detail_urlpath model pk) self.
Proof.
  intros Hcase self'.
  assert (url_namespace self' = url_namespace self) as Hns.
  { unfold self', state_after. by rewrite register_endpoint_run. }
  assert (head (omap (λ c, _model2endpoint self' !! c) (__mro__ model)) =
          head (omap (λ c, _model2endpoint self !! c) (__mro__ model))) as Hsame.
  { apply first_entry_ext, Forall_forall. intros c Hc.
    unfold self', state_after. rewrite register_endpoint_run.
    cbn [snd _model2endpoint].
    destruct as_default_view, (Endpoint.model class_) as [registered|] eqn:Hmodel;
      try done.
    rewrite dict_setdefault_lookup.
    destruct (_model2endpoint self !! c) eqn:Hentry; [done|].
    case_decide as Heq; [|done]. subst c.
    destruct Hcase as [? | [? | (registered' & [= <-] & [Hnotin | [? Hsome]])]];
      [done | done | by destruct Hnotin | congruence]. }
  destruct (urlpath_run_from_endpoint self model pk) as [Hlisting Hdetail].
  destruct (urlpath_run_from_endpoint self' model pk) as [Hlisting' Hdetail'].
  unfold result.
  rewrite !get_model_endpoint_run, Hlisting, Hdetail, Hlisting', Hdetail'.
  cbn [fst]. by rewrite Hsame, Hns.
Qed.

Lemma register_endpoint_lookup_frame_witness :
  result (get_model_endpoint Site.Page false)
    (state_after (register_endpoint "blog" Site.BlogPagesAPIViewSet true)
       Site.site_router) =
    result (get_model_endpoint Site.Page false) Site.site_router ∧
  result (get_model_listing_urlpath Site.Page)
    (state_after (register_endpoint "blog" Site.BlogPagesAPIViewSet true)
       Site.site_router) =
    result (get_model_listing_urlpath Site.Page) Site.site_router ∧
  result (get_object_detail_urlpath Site.Page 7)
    (state_after (register_endpoint "blog" Site.BlogPagesAPIViewSet true)
       Site.site_router) =
    result (get_object_detail_urlpath Site.Page 7) Site.site_router.
Proof.
  apply (register_endpoint_lookup_frame
           Site.site_router "blog" Site.BlogPagesAPIViewSet true Site.Page false 7).
  right. right. exists Site.BlogPage. split; [reflexivity|].
  left. apply (bool_decide_unpack _). vm_compute. exact I.
Defined.

(** ** What holds in every state built by registration calls *)

(** X6: in a router built by registration calls, the index and the lookups
    stay tied to the registrations.  An entry stored under a class belongs
    to an endpoint whose model is that class, and its name is a registered
    name.  So a model only ever resolves to an endpoint whose model is the
    model itself or one of its ancestors, and the name it resolves to is
    the namespace of exactly one fragment of [get_urlpatterns] (a fragment
    that may belong to an endpoint registered later under that name). *)
Theorem reachable_router_lookups_are_mounted self :
  reachable self →
  (∀ key name class_,
     _model2endpoint self !! key = Some (name, class_) →
     (∃ model, Endpoint.model class_ = Some model ∧ cls_id model = key) ∧
     is_Some (dict_get (_endpoints self) name)) ∧
  (∀ model specific name class_,
     result (get_model_endpoint model specific) self =
       Returned (Some (name, class_)) →
     (∃ registered, Endpoint.model class_ = Some registered ∧
                    cls_id registered ∈ __mro__ model) ∧
     ∃ urlpatterns mounted,
       result get_urlpatterns self = Returned urlpatterns ∧
       dict_get (_endpoints self) name = Some mounted ∧
       filter (λ p, route_namespace p = Some name) urlpatterns =
         [endpoint_fragment self (name, mounted)]).
Proof.
  intros Hreach. split.
  - intros key name class_ Hentry.
    destruct (reachable_index_consistent self Hreach _ _ _ Hentry) as [Hmodel Hname].
    split; [done | by apply dict_get_is_Some_keys].
  - intros model specific name class_. unfold result.
    rewrite get_model_endpoint_run. cbn [fst]. intros Hresult.
    assert (head (omap (λ c, _model2endpoint self !! c) (__mro__ model)) =
            Some (name, class_)) as Hhead by congruence.
    apply first_entry_from_list in Hhead as (c & Hc & Hentry).
    destruct (reachable_index_consistent self Hreach _ _ _ Hentry)
      as [(registered & Hmodel & <-) Hname].
    split; [by exists registered|].
    apply dict_get_is_Some_keys in Hname as [mounted Hmounted].
    exists (map (endpoint_fragment self) (dict_items (_endpoints self))), mounted.
    rewrite get_urlpatterns_run. split_and!; [done | done |].
    rewrite filter_namespace_fragments.
    rewrite (dict_filter_key (_endpoints self) name (reachable_dict_wf self Hreach)).
    by rewrite Hmounted.
Qed.

Lemma reachable_router_lookups_are_mounted_witness :
  ∃ urlpatterns mounted,
    result get_urlpatterns Site.site_router = Returned urlpatterns ∧
    dict_get (_endpoints Site.site_router) "pages" = Some mounted ∧
    filter (λ p, route_namespace p = Some "pages") urlpatterns =
      [endpoint_fragment Site.site_router ("pages", mounted)].
Proof.
  destruct (reachable_router_lookups_are_mounted Site.site_router
              site_router_reachable) as [_ Hlookup].
  apply (Hlookup Site.BlogPage false "pages" Site.PagesAPIViewSet).
  reflexivity.
Defined.

(** X7: in a router built by registration calls no two fragments of
    [get_urlpatterns] share a namespace, and there are as many fragments as
    registered names. *)
Theorem reachable_router_namespaces_distinct self :
  reachable self →
  ∃ urlpatterns,
    result get_urlpatterns self = Returned urlpatterns ∧
    NoDup (map route_namespace urlpatterns) ∧
    NoDup (map route_app_name urlpatterns) ∧
    length urlpatterns = length (dict_keys (_endpoints self)).
Proof.
  intros Hwf%reachable_dict_wf. eexists. unfold result.
  rewrite get_urlpatterns_run. cbn [fst]. unfold dict_items.
  rewrite endpoint_fragments_app_name, endpoint_fragments_namespace.
  split_and!; [done | | |].
  - apply (NoDup_fmap_2 Some), Hwf.
  - apply (NoDup_fmap_2 Some), Hwf.
  - unfold dict_keys. by rewrite length_map, length_fmap.
Qed.

Lemma reachable_router_namespaces_distinct_witness :
  ∃ urlpatterns,
    result get_urlpatterns Site.site_router = Returned urlpatterns ∧
    NoDup (map route_namespace urlpatterns) ∧
    NoDup (map route_app_name urlpatterns) ∧
    length urlpatterns = length (dict_keys (_endpoints Site.site_router)).
Proof.
  exact (reachable_router_namespaces_distinct Site.site_router
           site_router_reachable).
Defined.

(** ** Sequences of registrations *)

(** X8: further registration calls, however many, only extend a router.
    Its identity and namespace stay, the names registered so far keep their
    positions at the front of the registry (so their fragments keep their
    places), every index entry keeps its value, and a model that has an
    entry of its own resolves to that entry ever after. *)
Theorem registrations_only_extend self self' :
  registered_from self self' →
  self_id self' = self_id self ∧
  url_namespace self' = url_namespace self ∧
  dict_keys (_endpoints self) `prefix_of` dict_keys (_endpoints self') ∧
  _model2endpoint self ⊆ _model2endpoint self' ∧
  ∀ model specific entry,
    _model2endpoint self !! cls_id model = Some entry →
    result (get_model_endpoint model specific) self' = Returned (Some entry).
Proof.
  intros Hfrom.
  assert (self_id self' = self_id self ∧
          url_namespace self' = url_namespace self ∧
          dict_keys (_endpoints self) `prefix_of` dict_keys (_endpoints self') ∧
          _model2endpoint self ⊆ _model2endpoint self') as (Hid & Hns & Hkeys & Hindex).
  { induction Hfrom as [|self' name class_ adv _ (IHid & IHns & IHkeys & IHindex)];
      [done|].
    unfold state_after. rewrite register_endpoint_run.
    cbn [snd self_id url_namespace _endpoints _model2endpoint].
    split_and!; [done | done | |].
    - etrans; [exact IHkeys | apply dict_keys_setitem_prefix].
    - etrans; [exact IHindex|].
      destruct adv, (Endpoint.model class_); try done.
      apply dict_setdefault_subseteq. }
  split_and!; try done.
  intros model specific entry Hentry.
  unfold result. rewrite get_model_endpoint_run. cbn [fst].
  unfold __mro__. cbn [omap list_omap].
  by rewrite (lookup_weaken _ _ _ _ Hentry Hindex).
Qed.

Lemma registrations_only_extend_witness :
  result (get_model_endpoint Site.Page false)
    (state_after (register_endpoint "pages" Site.OtherPagesAPIViewSet true)
       (state_after (register_endpoint "blog" Site.BlogPagesAPIViewSet true)
          Site.site_router)) =
  Returned (Some ("pages", Site.PagesAPIViewSet)).
Proof.
  destruct (registrations_only_extend Site.site_router
              (state_after (register_endpoint "pages" Site.OtherPagesAPIViewSet true)
                 (state_after (register_endpoint "blog" Site.BlogPagesAPIViewSet true)
                    Site.site_router)))
    as (_ & _ & _ & _ & Hstable).
  - apply registered_from_step, registered_from_step, registered_from_refl.
  - apply Hstable. reflexivity.
Defined.

(** X9: when a name is registered again with another endpoint, the routes
    and the reverse lookup part ways.  If the first endpoint became the
    default of its model, then after the second registration the fragment
    under the name is the second endpoint's, while the listing and detail
    paths of the model are still built by the first endpoint, with the
    namespace of that name. *)
Theorem reregistered_name_keeps_first_path_builder
    self name first second second_default model pk :
  Endpoint.model first = Some model →
  _model2endpoint self !! cls_id model = None →
  let after_both :=
    state_after (register_endpoint name second second_default)
      (state_after (register_endpoint name first true) self) in
  dict_get (_endpoints after_both) name = Some second ∧
  (∃ urlpatterns,
     result get_urlpatterns after_both = Returned urlpatterns ∧
     endpoint_fragment after_both (name, second) ∈ urlpatterns) ∧
  result (get_model_listing_urlpath model) after_both =
    Returned (Endpoint.get_model_listing_urlpath first model
                (url_namespace self ++ ":" ++ name)) ∧
  result (get_object_detail_urlpath model pk) after_both =
    Returned (Endpoint.get_object_detail_urlpath first model pk
                (url_namespace self ++ ":" ++ name)).
Proof.
  intros Hmodel Hfree after_both.
  assert (_endpoints after_both =
          dict_setitem (dict_setitem (_endpoints self) name first) name second)
    as Hregistry.
  { unfold after_both, state_after. by rewrite !register_endpoint_run. }
  assert (url_namespace after_both = url_namespace self) as Hns.
  { unfold after_both, state_after. by rewrite !register_endpoint_run. }
  assert (head (omap (λ c, _model2endpoint after_both !! c) (__mro__ model)) =
          Some (name, first)) as Hhead.
  { unfold after_both, state_after. rewrite !register_endpoint_run.
    cbn [snd _model2endpoint]. rewrite Hmodel.
    unfold __mro__. cbn [omap list_omap].
    assert (dict_setdefault (_model2endpoint self) (cls_id model) (name, first)
              !! cls_id model = Some (name, first)) as Hfirst.
    { by rewrite dict_setdefault_lookup, Hfree, decide_True. }
    remember (dict_setdefault (_model2endpoint self) (cls_id model) (name, first))
      as index eqn:Hindex.
    destruct second_default, (Endpoint.model second) as [model2|];
      rewrite ?dict_setdefault_lookup, Hfirst; done. }
  destruct (urlpath_run_from_endpoint after_both model pk) as [Hlisting Hdetail].
  unfold result. rewrite Hlisting, Hdetail, Hhead, Hns, Hregistry. cbn [fst snd].
  split_and!; [apply dict_get_setitem_eq | | done | done].
  eexists. rewrite get_urlpatterns_run. split; [done|].
  apply list_elem_of_In, in_map, list_elem_of_In.
  rewrite Hregistry.
  apply (dict_get_items (dict_setitem (dict_setitem (_endpoints self) name first)
                           name second)).
  apply dict_get_setitem_eq.
Qed.

Lemma reregistered_name_keeps_first_path_builder_witness :
  dict_get
    (_endpoints
       (state_after (register_endpoint "pages" Site.OtherPagesAPIViewSet true)
          (state_after (register_endpoint "pages" Site.PagesAPIViewSet true)
             Site.empty_router)))
    "pages" = Some Site.OtherPagesAPIViewSet ∧
  result (get_object_detail_urlpath Site.Page 7)
    (state_after (register_endpoint "pages" Site.OtherPagesAPIViewSet true)
       (state_after (register_endpoint "pages" Site.PagesAPIViewSet true)
          Site.empty_router)) =
  Returned (Some "api:pages:detail").
Proof.
  destruct (reregistered_name_keeps_first_path_builder
              Site.empty_router "pages" Site.PagesAPIViewSet
              Site.OtherPagesAPIViewSet true Site.Page 7)
    as (Hregistry & _ & _ & Hdetail); [reflexivity | reflexivity |].
  split; [exact Hregistry | exact Hdetail].
Defined.

(** ** Wrapped views *)

(** X10: [wrap_view] touches one attribute of the request only: every other
    attribute and the path reach the handler as they came in, and an
    earlier [wagtailapi_router] is overwritten.  Hence wrapping an already
    wrapped view again, with the same or with another router, changes
    nothing in what the view does: the handler sees the router of the
    innermost wrapper. *)
Theorem wrap_view_request_frame_and_nesting self outer func request a :
  let request' := setattr request "wagtailapi_router" (self_id self) in
  delete "wagtailapi_router" (request_attrs request') =
    delete "wagtailapi_router" (request_attrs request) ∧
  request_path request' = request_path request ∧
  view_call (wrap_view outer (wrap_view self func)) request a =
    view_call (wrap_view self func) request a ∧
  view_call (wrap_view self (wrap_view self func)) request a =
    view_call (wrap_view self func) request a.
Proof.
  assert (∀ other, setattr (setattr request "wagtailapi_router" other)
                     "wagtailapi_router" (self_id self) =
                   setattr request "wagtailapi_router" (self_id self)) as Hover.
  { intros other. unfold setattr. cbn [request_path request_attrs].
    by rewrite insert_insert_eq. }
  cbn zeta. split_and!.
  - unfold setattr. cbn [request_attrs]. apply delete_insert_eq.
  - done.
  - cbn [wrap_view view_call]. by rewrite Hover.
  - cbn [wrap_view view_call]. by rewrite Hover.
Qed.

(** ** No exceptions *)

